(** * psutil, OpenBSD back end: the declarations of [psutil/arch/openbsd/openbsd.h]

    The header declares ten functions and one typedef.  This development
    embeds the declarations as data (types, parameters, return types), gives
    the integer types the value ranges and conversions of the C data models
    OpenBSD runs on, and proves what the declarations alone determine.  The
    function bodies live in [openbsd.c]; the header fixes the signatures
    only, and the few behavioural models below say where they come from. *)

From stdpp Require Import base decidable numbers list strings gmap.

Local Open Scope Z_scope.

(** ** C types and declarations *)

(** The types that occur in the header.  [pid_t] and [size_t] are typedefs
    of system headers; they are kept by name and given a width by the data
    model.  [PyObject] comes from [Python.h]. *)
Inductive ctype : Type :=
| Tint
| Tlong
| Tsize_t
| Tpid_t
| Tchar
| Tstruct (tag : string)
| Tnamed (name : string)
| Tptr (t : ctype).

#[global] Instance ctype_eq_dec : EqDecision ctype.
Proof. solve_decision. Defined.

Record param : Type := Param { p_type : ctype; p_name : string }.

#[global] Instance param_eq_dec : EqDecision param.
Proof. solve_decision. Defined.

Record fundecl : Type :=
  Fundecl { f_ret : ctype; f_name : string; f_params : list param }.

#[global] Instance fundecl_eq_dec : EqDecision fundecl.
Proof. solve_decision. Defined.

Definition PyObject : ctype := Tnamed "PyObject".

(** The declarations, one definition per line of the header, in the
    header's order and under the header's names. *)
Module openbsd_h.

(** [typedef struct kinfo_proc kinfo_proc;] *)
Definition kinfo_proc : ctype := Tstruct "kinfo_proc".

(** [int psutil_kinfo_proc(pid_t pid, struct kinfo_proc *proc);] *)
Definition psutil_kinfo_proc : fundecl :=
  Fundecl Tint "psutil_kinfo_proc"
    [Param Tpid_t "pid"; Param (Tptr (Tstruct "kinfo_proc")) "proc"].

(** [struct kinfo_file * kinfo_getfile(long pid, int* cnt);] *)
Definition kinfo_getfile : fundecl :=
  Fundecl (Tptr (Tstruct "kinfo_file")) "kinfo_getfile"
    [Param Tlong "pid"; Param (Tptr Tint) "cnt"].

(** [int psutil_get_proc_list(struct kinfo_proc **procList, size_t *procCount);] *)
Definition psutil_get_proc_list : fundecl :=
  Fundecl Tint "psutil_get_proc_list"
    [Param (Tptr (Tptr (Tstruct "kinfo_proc"))) "procList";
     Param (Tptr Tsize_t) "procCount"].

(** [char **_psutil_get_argv(long pid);] *)
Definition _psutil_get_argv : fundecl :=
  Fundecl (Tptr (Tptr Tchar)) "_psutil_get_argv" [Param Tlong "pid"].

(** [PyObject * psutil_get_cmdline(long pid);] *)
Definition psutil_get_cmdline : fundecl :=
  Fundecl (Tptr PyObject) "psutil_get_cmdline" [Param Tlong "pid"].

(** [int psutil_pid_exists(long pid);] *)
Definition psutil_pid_exists : fundecl :=
  Fundecl Tint "psutil_pid_exists" [Param Tlong "pid"].

(** [int psutil_raise_ad_or_nsp(long pid);] *)
Definition psutil_raise_ad_or_nsp : fundecl :=
  Fundecl Tint "psutil_raise_ad_or_nsp" [Param Tlong "pid"].

(** [PyObject *psutil_proc_threads(PyObject *self, PyObject *args);] *)
Definition psutil_proc_threads : fundecl :=
  Fundecl (Tptr PyObject) "psutil_proc_threads"
    [Param (Tptr PyObject) "self"; Param (Tptr PyObject) "args"].

(** [PyObject *psutil_virtual_mem(PyObject *self, PyObject *args);] *)
Definition psutil_virtual_mem : fundecl :=
  Fundecl (Tptr PyObject) "psutil_virtual_mem"
    [Param (Tptr PyObject) "self"; Param (Tptr PyObject) "args"].

(** [PyObject *psutil_swap_mem(PyObject *self, PyObject *args);] *)
Definition psutil_swap_mem : fundecl :=
  Fundecl (Tptr PyObject) "psutil_swap_mem"
    [Param (Tptr PyObject) "self"; Param (Tptr PyObject) "args"].

(** The typedefs of the header: new name, aliased type. *)
Definition typedefs : list (string * ctype) :=
  [("kinfo_proc"%string, Tstruct "kinfo_proc")].

(** Every function the header declares. *)
Definition decls : list fundecl :=
  [psutil_kinfo_proc; kinfo_getfile; psutil_get_proc_list; _psutil_get_argv;
   psutil_get_cmdline; psutil_pid_exists; psutil_raise_ad_or_nsp;
   psutil_proc_threads; psutil_virtual_mem; psutil_swap_mem].

End openbsd_h.

(** ** Reading declarations *)

Definition find_decl (name : string) (h : list fundecl) : option fundecl :=
  List.find (λ d, bool_decide (f_name d = name)) h.

Definition param_type (d : fundecl) (name : string) : option ctype :=
  p_type <$> List.find (λ p, bool_decide (p_name p = name)) (f_params d).

(** The type an out-parameter points to. *)
Definition pointee (t : ctype) : option ctype :=
  match t with Tptr t' => Some t' | _ => None end.

Definition out_param_type (d : fundecl) (name : string) : option ctype :=
  param_type d name ≫= pointee.

(** [PyCFunction], the calling convention of a method the Python runtime can
    call: it takes [PyObject *self] and [PyObject *args] and returns a
    [PyObject] pointer. *)
Definition is_PyCFunction (d : fundecl) : bool :=
  bool_decide (f_ret d = Tptr PyObject) &&
  bool_decide (p_type <$> f_params d = [Tptr PyObject; Tptr PyObject]) &&
  bool_decide (p_name <$> f_params d = ["self"; "args"]%string).

(** The functions that take a parameter named [pid], and of which type. *)
Definition takes_pid (d : fundecl) : bool :=
  bool_decide (is_Some (param_type d "pid")).

Definition takes_pid_as (t : ctype) (d : fundecl) : bool :=
  bool_decide (param_type d "pid" = Some t).

(** ** Integer types: data models, ranges, conversions *)

(** The widths, in bits, of the integer types the header uses.  They are
    fixed by the platform's ABI and its system headers, not by this header:
    [pid_t] is [int32_t] on OpenBSD, [size_t] is [unsigned long]. *)
Record data_model : Type := DataModel {
  int_bits : Z;
  long_bits : Z;
  size_t_bits : Z;
  pid_t_bits : Z
}.

(** OpenBSD's 32-bit ports (i386, armv7, ...). *)
Definition ilp32 : data_model :=
  {| int_bits := 32; long_bits := 32; size_t_bits := 32; pid_t_bits := 32 |}.

(** OpenBSD's 64-bit ports (amd64, arm64, sparc64, ...). *)
Definition lp64 : data_model :=
  {| int_bits := 32; long_bits := 64; size_t_bits := 64; pid_t_bits := 32 |}.

(** The data models the theorems cover: [int] has at least 16 bits and
    [long] at least 32 and no fewer than [int] (the C standard's minimum
    ranges); [size_t] is no narrower than [int] and [pid_t] no wider than
    [long], which holds on every OpenBSD port. *)
Definition dm_ok (dm : data_model) : bool :=
  (16 <=? int_bits dm) && (32 <=? long_bits dm) &&
  (int_bits dm <=? long_bits dm) && (int_bits dm <=? size_t_bits dm) &&
  (1 <=? pid_t_bits dm) && (pid_t_bits dm <=? long_bits dm).

(** Signedness and width of an integer type; [None] for the others.  Plain
    [char] is left out: its signedness differs between OpenBSD ports and no
    declaration of the header passes a [char] by value. *)
Definition int_kind (dm : data_model) (t : ctype) : option (bool * Z) :=
  match t with
  | Tint => Some (true, int_bits dm)
  | Tlong => Some (true, long_bits dm)
  | Tsize_t => Some (false, size_t_bits dm)
  | Tpid_t => Some (true, pid_t_bits dm)
  | _ => None
  end.

Definition kind_min (k : bool * Z) : Z :=
  if k.1 then - 2 ^ (k.2 - 1) else 0.

Definition kind_max (k : bool * Z) : Z :=
  if k.1 then 2 ^ (k.2 - 1) - 1 else 2 ^ k.2 - 1.

(** [INT_MAX] of the data model. *)
Definition INT_MAX (dm : data_model) : Z := kind_max (true, int_bits dm).

(** [v] is a value an object of type [t] can hold. *)
Definition representable (dm : data_model) (t : ctype) (v : Z) : Prop :=
  match int_kind dm t with
  | Some k => kind_min k <= v <= kind_max k
  | None => False
  end.

#[global] Instance representable_dec dm t v : Decision (representable dm t v).
Proof. unfold representable. destruct (int_kind dm t); apply _. Defined.

(** Conversion of an integer value to an integer type (C11 6.3.1.3): a value
    the type can hold is kept; otherwise it is reduced modulo [2^bits], into
    [0 .. 2^bits-1] for an unsigned type and, as gcc and clang define the
    implementation-defined signed case, into [-2^(bits-1) .. 2^(bits-1)-1]
    for a signed one. *)
Definition wrap (k : bool * Z) (v : Z) : Z :=
  if k.1 then (v + 2 ^ (k.2 - 1)) `mod` 2 ^ k.2 - 2 ^ (k.2 - 1)
  else v `mod` 2 ^ k.2.

Definition convert (dm : data_model) (t : ctype) (v : Z) : option Z :=
  (λ k, wrap k v) <$> int_kind dm t.

(** ** Calls through the declarations *)

(** The value the callee receives in parameter [name] when a caller that has
    the prototype in scope passes the integer value [v]: the argument is
    converted to the parameter's type, as if by assignment (C11 6.5.2.2p7). *)
Definition pass_arg (dm : data_model) (d : fundecl) (name : string) (v : Z)
  : option Z :=
  param_type d name ≫= λ t, convert dm t v.

(** A function that received [v] in its own [pid] parameter hands it on as
    the [pid] argument of [callee]. *)
Definition forward_pid (dm : data_model) (caller callee : fundecl) (v : Z)
  : option Z :=
  pass_arg dm caller "pid" v ≫= pass_arg dm callee "pid".

(** The values a caller can read back from the object an out-parameter
    points to, once the callee has stored a count there: the object has the
    pointed-to type, so it holds a value of that type and nothing else. *)
Definition reportable (dm : data_model) (d : fundecl) (name : string) (n : Z)
  : Prop :=
  match out_param_type d name with
  | Some t => representable dm t n
  | None => False
  end.

#[global] Instance reportable_dec dm d name n : Decision (reportable dm d name n).
Proof. unfold reportable. destruct (out_param_type d name); apply _. Defined.

(** The value left in the out-parameter when the callee stores the count
    [n], computed in any wider type, through it. *)
Definition store_count (dm : data_model) (d : fundecl) (name : string) (n : Z)
  : option Z :=
  out_param_type d name ≫= λ t, convert dm t n.

(** ** Behaviour of the process queries

    The bodies of the declared functions are in [openbsd.c], not in the
    header.  The three models below follow the specification's sentences
    about them and carry the suffix [_spec]; the kernel is its process
    table, a finite map from process ids to the kernel's per-process records
    ("one instance per live process"), whose fields the header does not show
    and which therefore stay an arbitrary type [A]. *)

(** Modelled from the spec: the exception classes are defined outside the
    header.  "A runtime-level exception distinguishing access denied from
    process not found": the two exceptions a failed query leaves set in the
    Python runtime. *)
Inductive runtime_error : Type :=
| NoSuchProcess
| AccessDenied.

#[global] Instance runtime_error_eq_dec : EqDecision runtime_error.
Proof. solve_decision. Defined.

(** Modelled from the spec: the body of [psutil_pid_exists] is missing.
    "Existence check: given a process id, report boolean liveness"; the
    declared result is an [int], so liveness is 1 and its absence 0. *)
Definition psutil_pid_exists_spec {A} (procs : gmap Z A) (pid : Z) : Z :=
  if decide (is_Some (procs !! pid)) then 1 else 0.

(** Modelled from the spec: the body of [psutil_raise_ad_or_nsp] is
    missing.  "Raises a runtime-level error distinguishing access denied
    from no such process" for a given process id: no such process when the
    existence check says the process is not there, access denied when it
    is.  The result is the exception left set; the [int] the C function
    returns beside it is not described. *)
Definition psutil_raise_ad_or_nsp_spec {A} (procs : gmap Z A) (pid : Z)
  : runtime_error :=
  if decide (psutil_pid_exists_spec procs pid = 0) then NoSuchProcess
  else AccessDenied.

(** Modelled from the spec: the body of [psutil_get_proc_list] is missing.
    "Populate a caller-provided array pointer and count with all live
    processes": the result is the status, the array stored through
    [procList] and the count stored through [procCount]. *)
Definition psutil_get_proc_list_spec {A} (procs : gmap Z A)
  : Z * list A * Z :=
  let procList := (map_to_list procs).*2 in
  (0, procList, Z.of_nat (length procList)).

(** A small process table for the examples: three live processes, each
    record reduced to its command name. *)
Definition sample_procs : gmap Z string :=
  {[ 1 := "init"; 4242 := "sshd"; 77 := "cron" ]}%string.

(** * Properties *)

(** ** Conversions *)

Section Conversions.
Implicit Types (k : bool * Z) (v : Z) (dm : data_model) (t : ctype).

Lemma pow2_half (b : Z) : 1 ≤ b → 2 ^ b = 2 * 2 ^ (b - 1).
Proof.
  intros Hb. replace b with (Z.succ (b - 1)) at 1 by lia.
  apply Z.pow_succ_r. lia.
Qed.

Lemma pow2_pos (b : Z) : 0 ≤ b → 0 < 2 ^ b.
Proof. intros Hb. apply Z.pow_pos_nonneg; lia. Qed.

(** A converted value fits the target type. *)
Lemma wrap_in_range k v : 1 ≤ k.2 → kind_min k ≤ wrap k v ≤ kind_max k.
Proof.
  destruct k as [[] b]; unfold wrap, kind_min, kind_max; simpl; intros Hb.
  - pose proof (pow2_half b Hb) as Hh.
    pose proof (pow2_pos (b - 1) ltac:(lia)) as Hp.
    pose proof (Z.mod_pos_bound (v + 2 ^ (b - 1)) (2 ^ b) ltac:(lia)). lia.
  - pose proof (pow2_pos b ltac:(lia)) as Hp.
    pose proof (Z.mod_pos_bound v (2 ^ b) Hp). lia.
Qed.

(** A value the target type can hold is kept. *)
Lemma wrap_id k v : 1 ≤ k.2 → kind_min k ≤ v ≤ kind_max k → wrap k v = v.
Proof.
  destruct k as [[] b]; unfold wrap, kind_min, kind_max; simpl; intros Hb Hv.
  - pose proof (pow2_half b Hb) as Hh.
    rewrite Z.mod_small by lia. lia.
  - apply Z.mod_small. lia.
Qed.

(** A value the target type cannot hold is changed. *)
Lemma wrap_changes k v :
  1 ≤ k.2 → ¬ (kind_min k ≤ v ≤ kind_max k) → wrap k v ≠ v.
Proof.
  intros Hb Hout Heq. apply Hout. rewrite <- Heq. by apply wrap_in_range.
Qed.

Lemma int_kind_bits dm t k :
  dm_ok dm = true → int_kind dm t = Some k → 1 ≤ k.2.
Proof.
  unfold dm_ok. rewrite !andb_true_iff, !Z.leb_le.
  intros (((((?&?)&?)&?)&?)&?) Hk.
  destruct t; simplify_eq/=; lia.
Qed.

Lemma convert_representable dm t v v' :
  dm_ok dm = true → convert dm t v = Some v' → representable dm t v'.
Proof.
  unfold convert, representable. intros Hok Hc.
  destruct (int_kind dm t) as [k|] eqn:Hk; simplify_eq/=.
  apply wrap_in_range. by eapply int_kind_bits.
Qed.

Lemma convert_id dm t v :
  dm_ok dm = true → representable dm t v → convert dm t v = Some v.
Proof.
  unfold convert, representable. intros Hok Hr.
  destruct (int_kind dm t) as [k|] eqn:Hk; [|done]. simpl. f_equal.
  apply wrap_id; [by eapply int_kind_bits | done].
Qed.

Lemma convert_changes dm t v v' :
  dm_ok dm = true → is_Some (int_kind dm t) → ¬ representable dm t v →
  convert dm t v = Some v' → v' ≠ v.
Proof.
  unfold convert, representable. intros Hok [k Hk] Hr Hc.
  rewrite Hk in *. simplify_eq/=.
  apply wrap_changes; [by eapply int_kind_bits | done].
Qed.

(** An argument the parameter's type can hold arrives unchanged. *)
Lemma pass_arg_id dm d name t v :
  dm_ok dm = true → param_type d name = Some t → representable dm t v →
  pass_arg dm d name v = Some v.
Proof.
  intros Hok Hp Hr. unfold pass_arg. rewrite Hp. simpl. by apply convert_id.
Qed.

(** Both OpenBSD data models are covered. *)
Lemma openbsd_models_ok : dm_ok ilp32 = true ∧ dm_ok lp64 = true.
Proof. by split. Qed.

Lemma INT_MAX_lt_size_max dm :
  dm_ok dm = true → INT_MAX dm < kind_max (false, size_t_bits dm).
Proof.
  unfold dm_ok, INT_MAX, kind_max. rewrite !andb_true_iff, !Z.leb_le. simpl.
  intros (((((?&?)&?)&?)&?)&?).
  pose proof (pow2_half (int_bits dm) ltac:(lia)).
  pose proof (pow2_pos (int_bits dm - 1) ltac:(lia)).
  pose proof (Z.pow_le_mono_r 2 (int_bits dm) (size_t_bits dm) ltac:(lia) ltac:(lia)).
  lia.
Qed.

End Conversions.

(** ** The declarations *)

Section Declarations.
Import openbsd_h.

Lemma decls_names :
  f_name <$> decls =
  ["psutil_kinfo_proc"; "kinfo_getfile"; "psutil_get_proc_list";
   "_psutil_get_argv"; "psutil_get_cmdline"; "psutil_pid_exists";
   "psutil_raise_ad_or_nsp"; "psutil_proc_threads"; "psutil_virtual_mem";
   "psutil_swap_mem"]%string.
Proof. reflexivity. Qed.

Lemma decls_names_NoDup : NoDup (f_name <$> decls).
Proof. rewrite decls_names. by apply (bool_decide_unpack _); vm_compute. Qed.

Lemma long_pid_takers :
  filter (takes_pid_as Tlong) decls =
  [kinfo_getfile; _psutil_get_argv; psutil_get_cmdline; psutil_pid_exists;
   psutil_raise_ad_or_nsp].
Proof. reflexivity. Qed.

(** C8: thread enumeration, virtual-memory statistics and swap-memory
    statistics ([psutil_proc_threads], [psutil_virtual_mem],
    [psutil_swap_mem]) are each declared as an entry point the Python
    runtime can call: the function takes the runtime's [self] and [args]
    objects, both [PyObject] pointers, and returns a [PyObject] pointer.
    They are the only declarations of the header of that shape. *)
Theorem stats_are_runtime_entry_points :
  Forall (λ name, ∃ d,
            find_decl name decls = Some d ∧
            f_ret d = Tptr PyObject ∧
            f_params d =
              [Param (Tptr PyObject) "self"; Param (Tptr PyObject) "args"])
         ["psutil_proc_threads"; "psutil_virtual_mem"; "psutil_swap_mem"]%string
  ∧ f_name <$> filter is_PyCFunction decls =
    ["psutil_proc_threads"; "psutil_virtual_mem"; "psutil_swap_mem"]%string.
Proof.
  split; [|reflexivity].
  repeat apply Forall_cons_2; [..|apply Forall_nil_2];
    eexists; (split; [reflexivity|]); by split.
Qed.

(** C9: [kinfo_getfile] reports its descriptor count through an [int]
    out-parameter ([cnt]), [psutil_get_proc_list] reports its count
    through a [size_t] one ([procCount]).  So, on every covered data model, any
    count read back from [cnt] is at most [INT_MAX], whatever count
    [kinfo_getfile] stored there, while [procCount] can report counts
    above [INT_MAX]. *)
Theorem kinfo_getfile_count_bounded_by_INT_MAX (dm : data_model) :
  dm_ok dm = true →
  out_param_type kinfo_getfile "cnt" = Some Tint ∧
  out_param_type psutil_get_proc_list "procCount" = Some Tsize_t ∧
  (∀ n, reportable dm kinfo_getfile "cnt" n → n ≤ INT_MAX dm) ∧
  (∀ n, ∃ v, store_count dm kinfo_getfile "cnt" n = Some v ∧ v ≤ INT_MAX dm) ∧
  (∃ n, reportable dm psutil_get_proc_list "procCount" n ∧ INT_MAX dm < n).
Proof.
  intros Hok. split_and!; [done | done | | | ].
  - intros n. unfold reportable. simpl. unfold representable, INT_MAX. simpl. lia.
  - intros n. eexists. split; [reflexivity|].
    apply (wrap_in_range (true, int_bits dm)).
    by apply (int_kind_bits dm Tint (true, int_bits dm)).
  - exists (kind_max (false, size_t_bits dm)). split.
    + unfold reportable. simpl. unfold representable. simpl.
      pose proof (INT_MAX_lt_size_max dm Hok) as Hlt.
      unfold INT_MAX, kind_max, kind_min in *. simpl in *.
      split; [|lia].
      assert (0 < 2 ^ (int_bits dm - 1)); [|lia].
      apply pow2_pos. pose proof (int_kind_bits dm Tint _ Hok eq_refl). simpl in *. lia.
    + by apply INT_MAX_lt_size_max.
Qed.

(** C10: [psutil_kinfo_proc] is the only declared function that takes the
    process id as [pid_t]; the five others that take one
    ([kinfo_getfile], [_psutil_get_argv], [psutil_get_cmdline],
    [psutil_pid_exists], [psutil_raise_ad_or_nsp]) take it as [long].  A
    value that fits [long] but not [pid_t] reaches each of those five
    unchanged, and is converted to a different value, one that fits
    [pid_t], when any of them hands it on to [psutil_kinfo_proc]. *)
Theorem long_pid_narrowed_for_psutil_kinfo_proc (dm : data_model) (v : Z) :
  dm_ok dm = true →
  representable dm Tlong v →
  ¬ representable dm Tpid_t v →
  filter takes_pid decls =
    psutil_kinfo_proc :: filter (takes_pid_as Tlong) decls ∧
  filter (takes_pid_as Tpid_t) decls = [psutil_kinfo_proc] ∧
  f_name <$> filter (takes_pid_as Tlong) decls =
    ["kinfo_getfile"; "_psutil_get_argv"; "psutil_get_cmdline";
     "psutil_pid_exists"; "psutil_raise_ad_or_nsp"]%string ∧
  Forall (λ d, pass_arg dm d "pid" v = Some v)
         (filter (takes_pid_as Tlong) decls) ∧
  ∃ v', v' ≠ v ∧ representable dm Tpid_t v' ∧
        pass_arg dm psutil_kinfo_proc "pid" v = Some v' ∧
        Forall (λ d, forward_pid dm d psutil_kinfo_proc v = Some v')
               (filter (takes_pid_as Tlong) decls).
Proof.
  intros Hok Hlong Hpid.
  assert (Hpass : Forall (λ d, pass_arg dm d "pid" v = Some v)
                    (filter (takes_pid_as Tlong) decls)).
  { rewrite long_pid_takers.
    repeat apply Forall_cons_2; [..|apply Forall_nil_2];
      by apply (pass_arg_id dm _ "pid" Tlong). }
  split_and!; [done | done | done | done |].
  destruct (convert dm Tpid_t v) as [v'|] eqn:Hc; [|done].
  exists v'. split_and!.
  - apply (convert_changes dm Tpid_t v v'); [done | by eexists | done | done].
  - by eapply convert_representable.
  - done.
  - eapply Forall_impl; [exact Hpass|]. simpl. intros d Hd.
    unfold forward_pid. rewrite Hd. simpl. exact Hc.
Qed.

(** A process id that fits [pid_t] is handed on unchanged. *)
Lemma pid_t_value_forwarded_unchanged (dm : data_model) (v : Z) :
  dm_ok dm = true →
  representable dm Tlong v →
  representable dm Tpid_t v →
  Forall (λ d, forward_pid dm d psutil_kinfo_proc v = Some v)
         (filter (takes_pid_as Tlong) decls).
Proof.
  intros Hok Hlong Hpid. rewrite long_pid_takers.
  repeat apply Forall_cons_2; [..|apply Forall_nil_2];
    unfold forward_pid;
    rewrite (pass_arg_id dm _ "pid" Tlong v) by done; simpl;
    by apply (pass_arg_id dm _ "pid" Tpid_t).
Qed.

End Declarations.

(** The narrowing on OpenBSD/amd64: [2^31] fits [long], not [pid_t], and
    arrives in [psutil_kinfo_proc] as [-2^31]; on the 32-bit ports [long] and
    [pid_t] have the same range and nothing is lost. *)
Example lp64_pid_2_31 :
  pass_arg lp64 openbsd_h.psutil_pid_exists "pid" 2147483648 = Some 2147483648 ∧
  forward_pid lp64 openbsd_h.psutil_pid_exists openbsd_h.psutil_kinfo_proc
    2147483648 = Some (-2147483648) ∧
  forward_pid lp64 openbsd_h.psutil_pid_exists openbsd_h.psutil_kinfo_proc
    4294967297 = Some 1.
Proof. by vm_compute. Qed.

Lemma ilp32_long_fits_pid_t v :
  representable ilp32 Tlong v → representable ilp32 Tpid_t v.
Proof. done. Qed.

(** A count of [2^31] descriptors stored through [int *cnt] reads back
    negative; through [size_t *procCount] it reads back as stored. *)
Example lp64_count_2_31 :
  store_count lp64 openbsd_h.kinfo_getfile "cnt" 2147483648
    = Some (-2147483648) ∧
  store_count lp64 openbsd_h.psutil_get_proc_list "procCount" 2147483648
    = Some 2147483648.
Proof. by vm_compute. Qed.

Lemma kinfo_getfile_count_bounded_by_INT_MAX_lp64 :
  dm_ok lp64 = true ∧
  INT_MAX lp64 = 2147483647 ∧
  (∀ n, reportable lp64 openbsd_h.kinfo_getfile "cnt" n → n ≤ INT_MAX lp64) ∧
  (∃ n, reportable lp64 openbsd_h.psutil_get_proc_list "procCount" n ∧
        INT_MAX lp64 < n).
Proof.
  pose proof (kinfo_getfile_count_bounded_by_INT_MAX lp64 eq_refl)
    as (_ & _ & Hcnt & _ & Hproc).
  split_and!; [reflexivity | reflexivity | exact Hcnt | exact Hproc].
Defined.

Lemma long_pid_narrowed_for_psutil_kinfo_proc_lp64 :
  dm_ok lp64 = true ∧
  representable lp64 Tlong 2147483648 ∧
  ¬ representable lp64 Tpid_t 2147483648 ∧
  ∃ v', v' ≠ 2147483648 ∧ representable lp64 Tpid_t v' ∧
        pass_arg lp64 openbsd_h.psutil_kinfo_proc "pid" 2147483648 = Some v'.
Proof.
  assert (Hlong : representable lp64 Tlong 2147483648)
    by (apply (bool_decide_unpack _); vm_compute; exact I).
  assert (Hpid : ¬ representable lp64 Tpid_t 2147483648)
    by (apply (bool_decide_unpack _); vm_compute; exact I).
  destruct (long_pid_narrowed_for_psutil_kinfo_proc lp64 2147483648
              eq_refl Hlong Hpid) as (_ & _ & _ & _ & v' & Hne & Hfit & Hpass & _).
  split_and!; [reflexivity | exact Hlong | exact Hpid |].
  exists v'. split_and!; [exact Hne | exact Hfit | exact Hpass].
Defined.

(** ** The process queries *)

Section Queries.
Context {A : Type}.
Implicit Types (procs : gmap Z A) (pid : Z).

Lemma psutil_pid_exists_spec_bool procs pid :
  psutil_pid_exists_spec procs pid = 0 ∨ psutil_pid_exists_spec procs pid = 1.
Proof. unfold psutil_pid_exists_spec. case_decide; auto. Qed.

Lemma psutil_pid_exists_spec_1 procs pid :
  psutil_pid_exists_spec procs pid = 1 ↔ is_Some (procs !! pid).
Proof. unfold psutil_pid_exists_spec. case_decide; split; done. Qed.

Lemma psutil_pid_exists_spec_0 procs pid :
  psutil_pid_exists_spec procs pid = 0 ↔ procs !! pid = None.
Proof.
  rewrite eq_None_not_Some. unfold psutil_pid_exists_spec.
  case_decide; split; done.
Qed.

(** A process that exits is no longer reported; one that starts is. *)
Lemma psutil_pid_exists_spec_delete procs pid :
  psutil_pid_exists_spec (delete pid procs) pid = 0.
Proof. apply psutil_pid_exists_spec_0, lookup_delete_eq. Qed.

Lemma psutil_pid_exists_spec_insert procs pid (p : A) :
  psutil_pid_exists_spec (<[pid:=p]> procs) pid = 1.
Proof. apply psutil_pid_exists_spec_1. rewrite lookup_insert_eq. by eexists. Qed.

(** C1: for a process id that is not in the process table,
    [psutil_pid_exists] returns 0 (false); in general its result is 0 or 1,
    and it is 1 exactly when the process is live. *)
Theorem psutil_pid_exists_reports_liveness procs pid :
  (procs !! pid = None → psutil_pid_exists_spec procs pid = 0) ∧
  (is_Some (procs !! pid) → psutil_pid_exists_spec procs pid = 1) ∧
  (psutil_pid_exists_spec procs pid = 0 ∨ psutil_pid_exists_spec procs pid = 1) ∧
  (psutil_pid_exists_spec procs pid = 1 ↔ pid ∈ dom procs).
Proof.
  split_and!.
  - apply psutil_pid_exists_spec_0.
  - apply psutil_pid_exists_spec_1.
  - apply psutil_pid_exists_spec_bool.
  - rewrite elem_of_dom. apply psutil_pid_exists_spec_1.
Qed.

(** C2: [psutil_raise_ad_or_nsp] raises one of two exceptions, access
    denied or no such process, never both; for a process id that is not in
    the process table it raises no such process, not access denied. *)
Theorem psutil_raise_ad_or_nsp_not_found procs pid :
  (psutil_raise_ad_or_nsp_spec procs pid = AccessDenied ∨
   psutil_raise_ad_or_nsp_spec procs pid = NoSuchProcess) ∧
  ¬ (psutil_raise_ad_or_nsp_spec procs pid = AccessDenied ∧
     psutil_raise_ad_or_nsp_spec procs pid = NoSuchProcess) ∧
  (procs !! pid = None →
   psutil_raise_ad_or_nsp_spec procs pid = NoSuchProcess ∧
   psutil_raise_ad_or_nsp_spec procs pid ≠ AccessDenied).
Proof.
  split_and!.
  - unfold psutil_raise_ad_or_nsp_spec. case_decide; auto.
  - intros [H1 H2]. congruence.
  - intros Hdead. apply psutil_pid_exists_spec_0 in Hdead.
    unfold psutil_raise_ad_or_nsp_spec. rewrite Hdead.
    by rewrite decide_True.
Qed.

(** C4: [psutil_get_proc_list] stores through [procList] (a pointer to an
    array pointer) and [procCount] (a pointer to a [size_t]) an array with
    exactly one entry for every live process and the number of its entries:
    the slots of the array correspond, one to one, to the ids of the live
    processes, and each slot holds the record of its process. *)
Theorem psutil_get_proc_list_complete procs :
  param_type openbsd_h.psutil_get_proc_list "procList"
    = Some (Tptr (Tptr openbsd_h.kinfo_proc)) ∧
  out_param_type openbsd_h.psutil_get_proc_list "procCount" = Some Tsize_t ∧
  ∃ (procList : list A) (procCount : Z) (pids : list Z),
    psutil_get_proc_list_spec procs = (0, procList, procCount) ∧
    procCount = Z.of_nat (length procList) ∧
    length procList = size procs ∧
    length pids = length procList ∧
    NoDup pids ∧
    (∀ pid, pid ∈ pids ↔ is_Some (procs !! pid)) ∧
    (∀ i pid, pids !! i = Some pid → procList !! i = procs !! pid).
Proof.
  split; [done|]. split; [done|].
  exists (map_to_list procs).*2, (Z.of_nat (length (map_to_list procs).*2)),
         (map_to_list procs).*1.
  split_and!.
  - done.
  - done.
  - by rewrite length_fmap, length_map_to_list.
  - by rewrite !length_fmap.
  - apply NoDup_fst_map_to_list.
  - intros pid. rewrite list_elem_of_fmap. split.
    + intros ([pid' p] & -> & Hin). apply elem_of_map_to_list in Hin.
      by eexists.
    + intros [p Hp]. exists (pid, p). split; [done|].
      by apply elem_of_map_to_list.
  - intros i pid. rewrite !list_lookup_fmap.
    destruct (map_to_list procs !! i) as [[pid' p]|] eqn:Hi; [|done].
    simpl. intros [= ->]. symmetry. apply elem_of_map_to_list.
    apply list_elem_of_lookup. by exists i.
Qed.

End Queries.

(** ** A small process table *)

Example sample_pid_exists :
  psutil_pid_exists_spec sample_procs 4242 = 1 ∧
  psutil_pid_exists_spec sample_procs 4243 = 0 ∧
  psutil_pid_exists_spec sample_procs (-1) = 0.
Proof. by vm_compute. Qed.

Example sample_raise :
  psutil_raise_ad_or_nsp_spec sample_procs 4242 = AccessDenied ∧
  psutil_raise_ad_or_nsp_spec sample_procs 4243 = NoSuchProcess.
Proof. by vm_compute. Qed.

(** The order of the entries is the finite map's; the specification gives
    none. *)
Example sample_proc_list :
  psutil_get_proc_list_spec sample_procs
  = (0, ["cron"; "sshd"; "init"]%string, 3).
Proof. by vm_compute. Qed.

Lemma psutil_pid_exists_reports_liveness_sample :
  sample_procs !! 4243 = None ∧
  psutil_pid_exists_spec sample_procs 4243 = 0.
Proof.
  assert (Hdead : sample_procs !! 4243 = None) by (by vm_compute).
  split; [exact Hdead|].
  exact (proj1 (psutil_pid_exists_reports_liveness sample_procs 4243) Hdead).
Defined.

Lemma psutil_raise_ad_or_nsp_not_found_sample :
  sample_procs !! 4243 = None ∧
  psutil_raise_ad_or_nsp_spec sample_procs 4243 = NoSuchProcess ∧
  psutil_raise_ad_or_nsp_spec sample_procs 4243 ≠ AccessDenied.
Proof.
  assert (Hdead : sample_procs !! 4243 = None) by (by vm_compute).
  split; [exact Hdead|].
  exact (proj2 (proj2 (psutil_raise_ad_or_nsp_not_found sample_procs 4243))
           Hdead).
Defined.

(** ** Narrowing a process id, in general *)

Section Narrowing.
Import openbsd_h.
Implicit Types (dm : data_model) (d : fundecl) (v : Z).

(** A signed conversion keeps the residue modulo [2^b]. *)
Lemma wrap_signed_mod (b v : Z) :
  1 ≤ b → wrap (true, b) v `mod` 2 ^ b = v `mod` 2 ^ b.
Proof.
  intros Hb. unfold wrap. simpl.
  rewrite Zminus_mod_idemp_l. f_equal. lia.
Qed.

(** Two values convert to the same signed value exactly when they are
    congruent modulo [2^b]. *)
Lemma wrap_signed_congr (b v1 v2 : Z) :
  1 ≤ b →
  wrap (true, b) v1 = wrap (true, b) v2 ↔ v1 `mod` 2 ^ b = v2 `mod` 2 ^ b.
Proof.
  intros Hb. split.
  - intros Heq. rewrite <- (wrap_signed_mod b v1), <- (wrap_signed_mod b v2) by done.
    by rewrite Heq.
  - intros Heq. unfold wrap. simpl.
    rewrite <- (Zplus_mod_idemp_l v1), <- (Zplus_mod_idemp_l v2).
    by rewrite Heq.
Qed.

(** Converting to a wider signed type first changes nothing of what the
    narrower one keeps. *)
Lemma wrap_signed_narrow (b B v : Z) :
  1 ≤ b ≤ B → wrap (true, b) (wrap (true, B) v) = wrap (true, b) v.
Proof.
  intros [Hb HB]. apply wrap_signed_congr; [done|].
  unfold wrap. simpl.
  pose proof (pow2_pos B ltac:(lia)) as HM.
  rewrite (Z.mod_eq (v + 2 ^ (B - 1)) (2 ^ B)) by lia.
  replace (2 ^ B) with (2 ^ (B - b) * 2 ^ b) at 1
    by (rewrite <- Z.pow_add_r by lia; f_equal; lia).
  replace (v + 2 ^ (B - 1)
           - 2 ^ (B - b) * 2 ^ b * ((v + 2 ^ (B - 1)) `div` 2 ^ B)
           - 2 ^ (B - 1))
    with (v + (- (2 ^ (B - b) * ((v + 2 ^ (B - 1)) `div` 2 ^ B))) * 2 ^ b)
    by lia.
  apply Z_mod_plus_full.
Qed.

Lemma dm_ok_pid_t_bits dm : dm_ok dm = true → 1 ≤ pid_t_bits dm ≤ long_bits dm.
Proof.
  unfold dm_ok. rewrite !andb_true_iff, !Z.leb_le. lia.
Qed.

Lemma long_pid_taker_param d :
  d ∈ filter (takes_pid_as Tlong) decls → param_type d "pid" = Some Tlong.
Proof.
  rewrite list_elem_of_filter. intros [Hd _].
  exact (bool_decide_unpack _ Hd).
Qed.

(** What [psutil_kinfo_proc] receives from a function that takes the process
    id as [long]. *)
Lemma forward_pid_long dm d v :
  param_type d "pid" = Some Tlong →
  forward_pid dm d psutil_kinfo_proc v
  = Some (wrap (true, pid_t_bits dm) (wrap (true, long_bits dm) v)).
Proof. intros Hd. unfold forward_pid, pass_arg. by rewrite Hd. Qed.

End Narrowing.

(** ** What the parameter types do to a process id and to a count *)

Section PidForwarding.
Import openbsd_h.
Implicit Types (dm : data_model) (d : fundecl) (v : Z).

(** X1: going through a function that takes the process id as [long] loses
    nothing more than [psutil_kinfo_proc]'s own [pid_t] parameter does: for
    every integer argument, what [psutil_kinfo_proc] receives when one of
    the five [long]-taking functions hands its [pid] on is what it receives
    when called with that argument directly. *)
Theorem forward_pid_same_as_direct_call dm v :
  dm_ok dm = true →
  Forall (λ d, forward_pid dm d psutil_kinfo_proc v
               = pass_arg dm psutil_kinfo_proc "pid" v)
         (filter (takes_pid_as Tlong) decls).
Proof.
  intros Hok. apply Forall_forall. intros d Hd.
  rewrite (forward_pid_long dm d v (long_pid_taker_param d Hd)).
  change (pass_arg dm psutil_kinfo_proc "pid" v)
    with (Some (wrap (true, pid_t_bits dm) v)).
  f_equal. apply wrap_signed_narrow. by apply dm_ok_pid_t_bits.
Qed.

(** X2: two process ids given to a [long]-taking function reach
    [psutil_kinfo_proc] as the same [pid_t] exactly when they are congruent
    modulo [2^pid_t_bits]; an id and the same id plus [2^pid_t_bits] are
    looked up as one process. *)
Theorem forwarded_pids_alias_modulo_pid_t dm (v1 v2 : Z) :
  dm_ok dm = true →
  Forall (λ d, forward_pid dm d psutil_kinfo_proc v1
               = forward_pid dm d psutil_kinfo_proc v2
               ↔ v1 `mod` 2 ^ pid_t_bits dm = v2 `mod` 2 ^ pid_t_bits dm)
         (filter (takes_pid_as Tlong) decls).
Proof.
  intros Hok. pose proof (dm_ok_pid_t_bits dm Hok) as [Hb HB].
  apply Forall_forall. intros d Hd.
  rewrite !(forward_pid_long dm d _ (long_pid_taker_param d Hd)).
  rewrite !wrap_signed_narrow by done.
  rewrite <- wrap_signed_congr by done.
  split; [by intros [= ->] | by intros ->].
Qed.

(** X3: a process id that fits [long] reaches [psutil_kinfo_proc] unchanged
    through a [long]-taking function exactly when it fits [pid_t]. *)
Theorem forward_pid_unchanged_iff_fits_pid_t dm v :
  dm_ok dm = true →
  representable dm Tlong v →
  Forall (λ d, forward_pid dm d psutil_kinfo_proc v = Some v
               ↔ representable dm Tpid_t v)
         (filter (takes_pid_as Tlong) decls).
Proof.
  intros Hok Hlong. pose proof (dm_ok_pid_t_bits dm Hok) as [Hb HB].
  apply Forall_forall. intros d Hd.
  rewrite (forward_pid_long dm d v (long_pid_taker_param d Hd)).
  rewrite wrap_signed_narrow by done.
  change (representable dm Tpid_t v)
    with (kind_min (true, pid_t_bits dm) ≤ v ≤ kind_max (true, pid_t_bits dm)).
  split.
  - intros [= Heq]. rewrite <- Heq. by apply wrap_in_range.
  - intros Hfit. f_equal. by apply wrap_id.
Qed.

(** X4: where [long] is no wider than [pid_t] (OpenBSD's 32-bit ports),
    every value of type [long] reaches [psutil_kinfo_proc] unchanged: the
    narrowing is a matter of the 64-bit ports only. *)
Theorem no_narrowing_when_long_is_pid_t_wide dm v :
  dm_ok dm = true →
  long_bits dm = pid_t_bits dm →
  representable dm Tlong v →
  Forall (λ d, forward_pid dm d psutil_kinfo_proc v = Some v)
         (filter (takes_pid_as Tlong) decls).
Proof.
  intros Hok Hsame Hlong. pose proof (dm_ok_pid_t_bits dm Hok) as [Hb HB].
  assert (Hfit : kind_min (true, pid_t_bits dm) ≤ v
                 ≤ kind_max (true, pid_t_bits dm)).
  { unfold representable in Hlong. simpl in Hlong. by rewrite <- Hsame. }
  apply Forall_forall. intros d Hd.
  rewrite (forward_pid_long dm d v (long_pid_taker_param d Hd)).
  rewrite wrap_signed_narrow by done.
  f_equal. by apply wrap_id.
Qed.

(** X5: the count [kinfo_getfile] stores through [int *cnt] is read back as
    stored exactly when it fits [int].  A count above [INT_MAX] and below
    [2^int_bits] is read back lowered by [2^int_bits], hence negative, while
    [psutil_get_proc_list]'s [size_t *procCount] gives the same count back
    as stored. *)
Theorem kinfo_getfile_count_exact_iff_fits_int dm (n : Z) :
  dm_ok dm = true →
  (store_count dm kinfo_getfile "cnt" n = Some n ↔ representable dm Tint n) ∧
  (INT_MAX dm < n < 2 ^ int_bits dm →
   store_count dm kinfo_getfile "cnt" n = Some (n - 2 ^ int_bits dm) ∧
   n - 2 ^ int_bits dm < 0 ∧
   store_count dm psutil_get_proc_list "procCount" n = Some n).
Proof.
  intros Hok.
  pose proof (int_kind_bits dm Tint (true, int_bits dm) Hok eq_refl) as Hb.
  simpl in Hb.
  change (store_count dm kinfo_getfile "cnt" n)
    with (Some (wrap (true, int_bits dm) n)).
  change (store_count dm psutil_get_proc_list "procCount" n)
    with (Some (wrap (false, size_t_bits dm) n)).
  change (representable dm Tint n)
    with (kind_min (true, int_bits dm) ≤ n ≤ kind_max (true, int_bits dm)).
  split.
  - split.
    + intros [= Heq]. rewrite <- Heq. by apply wrap_in_range.
    + intros Hfit. f_equal. by apply wrap_id.
  - unfold INT_MAX, kind_max. simpl. intros [Hlo Hhi].
    pose proof (pow2_half (int_bits dm) Hb) as Hh.
    pose proof (INT_MAX_lt_size_max dm Hok) as Hsz.
    unfold INT_MAX, kind_max in Hsz. simpl in Hsz.
    assert (Hle : 2 ^ int_bits dm ≤ 2 ^ size_t_bits dm).
    { apply Z.pow_le_mono_r; [lia|].
      revert Hok. unfold dm_ok. rewrite !andb_true_iff, !Z.leb_le. lia. }
    split_and!.
    + f_equal. unfold wrap. simpl.
      rewrite <- (Z.mod_unique_pos (n + 2 ^ (int_bits dm - 1)) (2 ^ int_bits dm)
                    1 (n + 2 ^ (int_bits dm - 1) - 2 ^ int_bits dm)); lia.
    + lia.
    + f_equal. unfold wrap. simpl. apply Z.mod_small. lia.
Qed.

End PidForwarding.

(** On OpenBSD/amd64 the process ids [1] and [2^32 + 1] are one process to
    [psutil_kinfo_proc]. *)
Example lp64_pid_alias :
  forward_pid lp64 openbsd_h.psutil_get_cmdline openbsd_h.psutil_kinfo_proc
    4294967297
  = forward_pid lp64 openbsd_h.psutil_get_cmdline openbsd_h.psutil_kinfo_proc 1.
Proof. by vm_compute. Qed.

Lemma forward_pid_same_as_direct_call_lp64 :
  dm_ok lp64 = true ∧
  Forall (λ d, forward_pid lp64 d openbsd_h.psutil_kinfo_proc 4294967297
               = pass_arg lp64 openbsd_h.psutil_kinfo_proc "pid" 4294967297)
         (filter (takes_pid_as Tlong) openbsd_h.decls).
Proof.
  split; [reflexivity|].
  exact (forward_pid_same_as_direct_call lp64 4294967297 eq_refl).
Defined.

Lemma forwarded_pids_alias_modulo_pid_t_lp64 :
  dm_ok lp64 = true ∧
  Forall (λ d, forward_pid lp64 d openbsd_h.psutil_kinfo_proc 1
               = forward_pid lp64 d openbsd_h.psutil_kinfo_proc 4294967297
               ↔ 1 `mod` 2 ^ pid_t_bits lp64
                 = 4294967297 `mod` 2 ^ pid_t_bits lp64)
         (filter (takes_pid_as Tlong) openbsd_h.decls).
Proof.
  split; [reflexivity|].
  exact (forwarded_pids_alias_modulo_pid_t lp64 1 4294967297 eq_refl).
Defined.

Lemma forward_pid_unchanged_iff_fits_pid_t_lp64 :
  dm_ok lp64 = true ∧
  representable lp64 Tlong (-1) ∧
  Forall (λ d, forward_pid lp64 d openbsd_h.psutil_kinfo_proc (-1) = Some (-1)
               ↔ representable lp64 Tpid_t (-1))
         (filter (takes_pid_as Tlong) openbsd_h.decls).
Proof.
  assert (Hlong : representable lp64 Tlong (-1))
    by (apply (bool_decide_unpack _); vm_compute; exact I).
  split_and!; [reflexivity | exact Hlong |].
  exact (forward_pid_unchanged_iff_fits_pid_t lp64 (-1) eq_refl Hlong).
Defined.

Lemma no_narrowing_when_long_is_pid_t_wide_ilp32 :
  dm_ok ilp32 = true ∧
  long_bits ilp32 = pid_t_bits ilp32 ∧
  representable ilp32 Tlong 2147483647 ∧
  Forall (λ d, forward_pid ilp32 d openbsd_h.psutil_kinfo_proc 2147483647
               = Some 2147483647)
         (filter (takes_pid_as Tlong) openbsd_h.decls).
Proof.
  assert (Hlong : representable ilp32 Tlong 2147483647)
    by (apply (bool_decide_unpack _); vm_compute; exact I).
  split_and!; [reflexivity | reflexivity | exact Hlong |].
  exact (no_narrowing_when_long_is_pid_t_wide ilp32 2147483647
           eq_refl eq_refl Hlong).
Defined.

Lemma kinfo_getfile_count_exact_iff_fits_int_lp64 :
  dm_ok lp64 = true ∧
  INT_MAX lp64 < 3000000000 < 2 ^ int_bits lp64 ∧
  store_count lp64 openbsd_h.kinfo_getfile "cnt" 3000000000
    = Some (3000000000 - 2 ^ int_bits lp64) ∧
  3000000000 - 2 ^ int_bits lp64 < 0 ∧
  store_count lp64 openbsd_h.psutil_get_proc_list "procCount" 3000000000
    = Some 3000000000.
Proof.
  assert (Hn : INT_MAX lp64 < 3000000000 < 2 ^ int_bits lp64)
    by (split; reflexivity).
  split_and!; [reflexivity | apply Hn | apply Hn | ..];
    apply (proj2 (kinfo_getfile_count_exact_iff_fits_int lp64 3000000000
                    eq_refl) Hn).
Defined.
